(** * MultiplexerSink: a media sink that fans out to two owned sinks

    A verification development for [dom/media/mediasink/MultiplexerSink.h]
    (declaration and implementation of [mozilla::MultiplexerSink]).

    The composite owns two [MediaSink] references, [mVideoSink] and
    [mDecodedStream], and implements the [MediaSink] interface by delegating
    each virtual method to one or both of them.  Every method body is a short
    straight-line sequence of delegate calls, so a method is embedded as a
    _delegation program_: a tree whose nodes are the virtual calls issued on
    a member and whose leaves are the returned values.  The sinks behind the
    two members are the environment; an interpreter runs a program against
    them, threading the state of the world and recording the calls issued. *)

From Stdlib Require Import ZArith List String Bool Lia.
Import ListNotations.
Local Open Scope Z_scope.

(** ** Values crossing the interface *)

(** Modelled from the spec: [TrackType] is declared outside the sources at
    hand; the spec gives it the two values Audio and Video. *)
Inductive TrackType : Type := Audio | Video.

(** Modelled from the spec: [nsresult], [NS_OK] and [NS_ERROR_FAILURE] are
    declared outside the sources at hand.  The spec separates one success
    outcome from failure outcomes and calls the aggregate failure
    "GenericFailure".  A result is an unsigned 32-bit status code whose top
    bit marks a failure; [NS_OK] is the zero code. *)
Definition nsresult : Type := Z.

Definition NS_OK : nsresult := 0.

Definition NS_ERROR_FAILURE : nsresult := 0x80004005.

Definition NS_FAILED (rv : nsresult) : bool := Z.testbit rv 31.

Definition NS_SUCCEEDED (rv : nsresult) : bool := negb (NS_FAILED rv).

(** A raw pointer or [RefPtr]: null, or a reference to an object. *)
Definition ptr (A : Type) : Type := option A.

Definition nullptr {A : Type} : ptr A := None.

(** The remaining types are only ever passed through by the composite, never
    inspected, so they stay abstract.  Types handed over by pointer or by
    non-const reference ([TimeStamp], [EndedPromise], [AudioDeviceInfo],
    [VideoFrameContainer], [MediaSinkDebugInfo]) stand for the identity of the
    object referred to; the others are values. *)
Class MediaTypes : Type := {
  TimeUnit : Type;
  TimeStamp : Type;
  MediaInfo : Type;
  VideoInfo : Type;
  EndedPromise : Type;
  AudioDeviceInfo : Type;
  VideoFrameContainer : Type;
  MediaSinkDebugInfo : Type;
  double : Type
}.

(** ** The MediaSink interface *)

Module MediaSink.
Section Interface.
Context `{MediaTypes}.

(** One constructor per virtual method overridden at lines 19-39, indexed by
    the type the method returns ([unit] for [void]). *)
Inductive Call : Type -> Type :=
| OnEnded (aType : TrackType) : Call (ptr EndedPromise)
| GetEndTime (aType : TrackType) : Call TimeUnit
| GetPosition (aTimeStamp : ptr TimeStamp) : Call TimeUnit
| HasUnplayedFrames (aType : TrackType) : Call bool
| UnplayedDuration (aType : TrackType) : Call TimeUnit
| SetVolume (aVolume : double) : Call unit
| SetStreamName (aStreamName : string) : Call unit
| SetPlaybackRate (aPlaybackRate : double) : Call unit
| SetPreservesPitch (aPreservesPitch : bool) : Call unit
| SetPlaying (aPlaying : bool) : Call unit
| PlaybackRate : Call double
| Redraw (aInfo : VideoInfo) : Call unit
| Start (aStartTime : TimeUnit) (aInfo : MediaInfo) : Call nsresult
| Stop : Call unit
| IsStarted : Call bool
| IsPlaying : Call bool
| AudioDevice : Call (ptr AudioDeviceInfo)
| Shutdown : Call unit
| SetSecondaryVideoContainer (aSecondary : ptr VideoFrameContainer) : Call unit
| GetDebugInfo (aInfo : MediaSinkDebugInfo) : Call unit.

(** The method a call names, arguments dropped. *)
Definition name {B : Type} (c : Call B) : string :=
  match c with
  | OnEnded _ => "OnEnded"
  | GetEndTime _ => "GetEndTime"
  | GetPosition _ => "GetPosition"
  | HasUnplayedFrames _ => "HasUnplayedFrames"
  | UnplayedDuration _ => "UnplayedDuration"
  | SetVolume _ => "SetVolume"
  | SetStreamName _ => "SetStreamName"
  | SetPlaybackRate _ => "SetPlaybackRate"
  | SetPreservesPitch _ => "SetPreservesPitch"
  | SetPlaying _ => "SetPlaying"
  | PlaybackRate => "PlaybackRate"
  | Redraw _ => "Redraw"
  | Start _ _ => "Start"
  | Stop => "Stop"
  | IsStarted => "IsStarted"
  | IsPlaying => "IsPlaying"
  | AudioDevice => "AudioDevice"
  | Shutdown => "Shutdown"
  | SetSecondaryVideoContainer _ => "SetSecondaryVideoContainer"
  | GetDebugInfo _ => "GetDebugInfo"
  end%string.

(** A sink object, seen from its caller: every virtual call returns a value
    of the declared type (nothing, for a [void] method) and may change the
    world.  [St] is the whole state the call can reach (the sink's own
    fields, objects it shares, memory behind the pointers it is handed), so
    nothing is assumed about what two sinks have in common. *)
Definition Sink (St : Type) : Type := forall B : Type, Call B -> St -> B * St.

(** How a call ends when C++ exceptions are taken into account. *)
Inductive Completion (B : Type) : Type :=
| Normal (b : B)
| Thrown.

(** A sink object whose virtual calls may also end by throwing. *)
Definition ThrowingSink (St : Type) : Type :=
  forall B : Type, Call B -> St -> Completion B * St.

(** A sink that always returns is a sink that never throws. *)
Definition returning {St : Type} (s : Sink St) : ThrowingSink St :=
  fun B c st => let (b, st') := s B c st in (Normal B b, st').

End Interface.

Arguments Normal {B} b.
Arguments Thrown {B}.

End MediaSink.

(** ** Delegation programs *)

(** The two data members of the class (lines 44-45). *)
Inductive Member : Type := mVideoSink | mDecodedStream.

Definition Member_eqb (m n : Member) : bool :=
  match m, n with
  | mVideoSink, mVideoSink | mDecodedStream, mDecodedStream => true
  | _, _ => false
  end.

Section Programs.
Context `{MediaTypes}.

(** [Invoke m c k] is the statement [x = m->c(...); k x]. *)
Inductive Prog (A : Type) : Type :=
| Ret (a : A)
| Invoke (B : Type) (m : Member) (c : MediaSink.Call B) (k : B -> Prog A).

Arguments Ret {A} a.
Arguments Invoke {A B} m c k.

Fixpoint bind {A C : Type} (p : Prog A) (k : A -> Prog C) : Prog C :=
  match p with
  | Ret a => k a
  | Invoke m c k' => Invoke m c (fun b => bind (k' b) k)
  end.

(** A single delegate call [m->c(...)]. *)
Definition call {B : Type} (m : Member) (c : MediaSink.Call B) : Prog B :=
  Invoke m c Ret.

(** One delegate call, as an observer of the two sinks sees it. *)
Inductive Event : Type :=
| Calls (m : Member) (B : Type) (c : MediaSink.Call B).

End Programs.

Arguments Ret {_ A} a.
Arguments Invoke {_ A B} m c k.
Arguments Calls {_} m {B} c.

Declare Scope prog_scope.
Delimit Scope prog_scope with prog.
Notation "x <- p ;; q" := (bind p (fun x => q))
  (at level 61, p at next level, right associativity) : prog_scope.
Notation "p ;; q" := (bind p (fun _ => q))
  (at level 61, right associativity) : prog_scope.

(** ** The composite *)

Module MultiplexerSink.
Section Methods.
Context `{MediaTypes}.
Local Open Scope prog_scope.

(** Lines 65-68. *)
Definition OnEnded (aType : TrackType) : Prog (ptr EndedPromise) :=
  call mVideoSink (MediaSink.OnEnded aType).

(** Lines 70-72. *)
Definition GetEndTime (aType : TrackType) : Prog TimeUnit :=
  call mVideoSink (MediaSink.GetEndTime aType).

(** Lines 74-76.  The declaration (line 21) gives the parameter the default
    [nullptr]; a caller that omits it calls [GetPosition nullptr]. *)
Definition GetPosition (aTimeStamp : ptr TimeStamp) : Prog TimeUnit :=
  call mVideoSink (MediaSink.GetPosition aTimeStamp).

Definition GetPosition_default : Prog TimeUnit := GetPosition nullptr.

(** Lines 78-80. *)
Definition HasUnplayedFrames (aType : TrackType) : Prog bool :=
  call mVideoSink (MediaSink.HasUnplayedFrames aType).

(** Lines 82-84. *)
Definition UnplayedDuration (aType : TrackType) : Prog TimeUnit :=
  call mVideoSink (MediaSink.UnplayedDuration aType).

(** Lines 86-91. *)
Definition SetVolume (aVolume : double) : Prog unit :=
  call mVideoSink (MediaSink.SetVolume aVolume).

(** Lines 93-96. *)
Definition SetStreamName (aStreamName : string) : Prog unit :=
  call mVideoSink (MediaSink.SetStreamName aStreamName) ;;
  call mDecodedStream (MediaSink.SetStreamName aStreamName).

(** Lines 98-101. *)
Definition SetPlaybackRate (aPlaybackRate : double) : Prog unit :=
  call mVideoSink (MediaSink.SetPlaybackRate aPlaybackRate) ;;
  call mDecodedStream (MediaSink.SetPlaybackRate aPlaybackRate).

(** Lines 103-107. *)
Definition SetPreservesPitch (aPreservesPitch : bool) : Prog unit :=
  call mVideoSink (MediaSink.SetPreservesPitch aPreservesPitch).

(** Lines 109-112. *)
Definition SetPlaying (aPlaying : bool) : Prog unit :=
  call mVideoSink (MediaSink.SetPlaying aPlaying) ;;
  call mDecodedStream (MediaSink.SetPlaying aPlaying).

(** Lines 114-116. *)
Definition PlaybackRate : Prog double :=
  call mVideoSink MediaSink.PlaybackRate.

(** Lines 118-121. *)
Definition Redraw (aInfo : VideoInfo) : Prog unit :=
  call mVideoSink (MediaSink.Redraw aInfo) ;;
  call mDecodedStream (MediaSink.Redraw aInfo).

(** Lines 123-136. *)
Definition Start (aStartTime : TimeUnit) (aInfo : MediaInfo) : Prog nsresult :=
  videoSinkRes <- call mVideoSink (MediaSink.Start aStartTime aInfo) ;;
  decodedStreamRes <- call mDecodedStream (MediaSink.Start aStartTime aInfo) ;;
  if videoSinkRes =? decodedStreamRes then Ret videoSinkRes
  else if videoSinkRes =? NS_OK then Ret decodedStreamRes
  else if decodedStreamRes =? NS_OK then Ret videoSinkRes
  else Ret NS_ERROR_FAILURE.

(** Lines 138-141. *)
Definition Stop : Prog unit :=
  call mVideoSink MediaSink.Stop ;;
  call mDecodedStream MediaSink.Stop.

(** Line 143. *)
Definition IsStarted : Prog bool :=
  call mVideoSink MediaSink.IsStarted.

(** Line 145. *)
Definition IsPlaying : Prog bool :=
  call mVideoSink MediaSink.IsPlaying.

(** Lines 147-149. *)
Definition AudioDevice : Prog (ptr AudioDeviceInfo) :=
  call mVideoSink MediaSink.AudioDevice.

(** Lines 151-154. *)
Definition Shutdown : Prog unit :=
  call mVideoSink MediaSink.Shutdown ;;
  call mDecodedStream MediaSink.Shutdown.

(** Lines 156-160. *)
Definition SetSecondaryVideoContainer (aSecondary : ptr VideoFrameContainer)
  : Prog unit :=
  call mVideoSink (MediaSink.SetSecondaryVideoContainer aSecondary) ;;
  call mDecodedStream (MediaSink.SetSecondaryVideoContainer aSecondary).

(** Lines 162-165. *)
Definition GetDebugInfo (aInfo : MediaSinkDebugInfo) : Prog unit :=
  call mVideoSink (MediaSink.GetDebugInfo aInfo).

(** The [override]s of lines 19-39: which body answers which virtual call on
    the composite. *)
Definition dispatch {B : Type} (c : MediaSink.Call B) : Prog B :=
  match c with
  | MediaSink.OnEnded aType => OnEnded aType
  | MediaSink.GetEndTime aType => GetEndTime aType
  | MediaSink.GetPosition aTimeStamp => GetPosition aTimeStamp
  | MediaSink.HasUnplayedFrames aType => HasUnplayedFrames aType
  | MediaSink.UnplayedDuration aType => UnplayedDuration aType
  | MediaSink.SetVolume aVolume => SetVolume aVolume
  | MediaSink.SetStreamName aStreamName => SetStreamName aStreamName
  | MediaSink.SetPlaybackRate aPlaybackRate => SetPlaybackRate aPlaybackRate
  | MediaSink.SetPreservesPitch aPreservesPitch =>
      SetPreservesPitch aPreservesPitch
  | MediaSink.SetPlaying aPlaying => SetPlaying aPlaying
  | MediaSink.PlaybackRate => PlaybackRate
  | MediaSink.Redraw aInfo => Redraw aInfo
  | MediaSink.Start aStartTime aInfo => Start aStartTime aInfo
  | MediaSink.Stop => Stop
  | MediaSink.IsStarted => IsStarted
  | MediaSink.IsPlaying => IsPlaying
  | MediaSink.AudioDevice => AudioDevice
  | MediaSink.Shutdown => Shutdown
  | MediaSink.SetSecondaryVideoContainer aSecondary =>
      SetSecondaryVideoContainer aSecondary
  | MediaSink.GetDebugInfo aInfo => GetDebugInfo aInfo
  end.

(** The object: what each of the two [const RefPtr<MediaSink>] members refers
    to.  The members are [const] and no method assigns them, so a method reads
    the object and never produces a new one. *)
Definition Object (St : Type) : Type := Member -> MediaSink.Sink St.

(** Lines 61-63: the constructor binds the two members, once. *)
Definition MultiplexerSink {St : Type}
  (aVideoSink aDecodedStream : MediaSink.Sink St) : Object St :=
  fun m => match m with
           | mVideoSink => aVideoSink
           | mDecodedStream => aDecodedStream
           end.

(** The same object when its sinks' calls may throw. *)
Definition ThrowingObject (St : Type) : Type :=
  Member -> MediaSink.ThrowingSink St.

End Methods.
End MultiplexerSink.

(** ** Running a method against the two sinks *)

Section Semantics.
Context `{MediaTypes}.

(** [run self p st] executes the body [p] on the object [self] from the world
    [st]: each delegate call is answered by the sink the member refers to.
    It yields the returned value, the world afterwards and the delegate calls
    in the order issued. *)
Fixpoint run {St A : Type} (self : MultiplexerSink.Object St) (p : Prog A)
  (st : St) : A * St * list Event :=
  match p with
  | Ret a => (a, st, [])
  | Invoke m c k =>
      let (b, st1) := self m _ c st in
      let '(a, st2, tr) := run self (k b) st1 in
      (a, st2, Calls m c :: tr)
  end.

Definition result {St A : Type} (o : A * St * list Event) : A := fst (fst o).

Definition final {St A : Type} (o : A * St * list Event) : St := snd (fst o).

Definition calls {St A : Type} (o : A * St * list Event) : list Event := snd o.

(** The same, when a delegate call may throw.  The bodies contain no handler,
    so an exception leaves the method at the call that raised it. *)
Fixpoint exec {St A : Type} (self : MultiplexerSink.ThrowingObject St)
  (p : Prog A) (st : St) : MediaSink.Completion A * St * list Event :=
  match p with
  | Ret a => (MediaSink.Normal a, st, [])
  | Invoke m c k =>
      match self m _ c st with
      | (MediaSink.Normal b, st1) =>
          let '(a, st2, tr) := exec self (k b) st1 in
          (a, st2, Calls m c :: tr)
      | (MediaSink.Thrown, st1) => (MediaSink.Thrown, st1, [Calls m c])
      end
  end.

(** Observations on a sequence of delegate calls. *)
Definition invoked (m : Member) (method : string) (e : Event) : bool :=
  match e with
  | Calls m' c => Member_eqb m m' && String.eqb method (MediaSink.name c)
  end.

Definition times (m : Member) (method : string) (tr : list Event) : nat :=
  List.length (filter (invoked m method) tr).

Definition target (e : Event) : Member :=
  match e with Calls m _ => m end.

Definition reached (m : Member) (tr : list Event) : bool :=
  existsb (fun e => Member_eqb m (target e)) tr.

(** The argument pair of a [Start] call. *)
Definition start_arguments (e : Event) : option (TimeUnit * MediaInfo) :=
  match e with
  | Calls _ (MediaSink.Start aStartTime aInfo) => Some (aStartTime, aInfo)
  | Calls _ _ => None
  end.

(** The [Start] argument pairs one member received, in order. *)
Fixpoint started_with (m : Member) (tr : list Event)
  : list (TimeUnit * MediaInfo) :=
  match tr with
  | [] => []
  | e :: tr' =>
      match start_arguments e with
      | Some a => if Member_eqb m (target e) then a :: started_with m tr'
                  else started_with m tr'
      | None => started_with m tr'
      end
  end.

(** The pointer a [GetPosition] call carries. *)
Definition position_pointer (e : Event) : option (ptr TimeStamp) :=
  match e with
  | Calls _ (MediaSink.GetPosition aTimeStamp) => Some aTimeStamp
  | Calls _ _ => None
  end.

(** Two sink objects with nothing in common: the world is the pair of their
    private states and each call touches its own half. *)
Definition on_fst {P Q : Type} (v : MediaSink.Sink P) : MediaSink.Sink (P * Q) :=
  fun B c st => let (b, p) := v B c (fst st) in (b, (p, snd st)).

Definition on_snd {P Q : Type} (d : MediaSink.Sink Q) : MediaSink.Sink (P * Q) :=
  fun B c st => let (b, q) := d B c (snd st) in (b, (fst st, q)).

Definition apart {P Q : Type} (v : MediaSink.Sink P) (d : MediaSink.Sink Q)
  : MultiplexerSink.Object (P * Q) :=
  MultiplexerSink.MultiplexerSink (on_fst v) (on_snd d).


(** A sink that throws from one method and otherwise behaves as [s]. *)
Definition throwing_from {St : Type} (method : string) (s : MediaSink.Sink St)
  : MediaSink.ThrowingSink St :=
  fun B c st =>
    if String.eqb method (MediaSink.name c) then (MediaSink.Thrown, st)
    else MediaSink.returning s B c st.

End Semantics.

(** ** Test doubles *)

Module TestDouble.

(** Stand-ins for the abstract types: a microsecond count for a time, the
    pair (has audio, has video) for a stream description, numbers for object
    identities and for rates. *)
Definition types : MediaTypes :=
  {| TimeUnit := Z;
     TimeStamp := nat;
     MediaInfo := bool * bool;
     VideoInfo := Z * Z;
     EndedPromise := nat;
     AudioDeviceInfo := nat;
     VideoFrameContainer := nat;
     MediaSinkDebugInfo := nat;
     double := Z |}.

Section Recorder.
Context `{MediaTypes}.

(** A sink that answers from a fixed configuration and records what it was
    told. *)
Record State : Type := {
  startResult : nsresult;
  position : TimeUnit;
  rate : double;
  streamName : string;
  started : bool;
  playing : bool;
  starts : list (TimeUnit * MediaInfo);
  shutdowns : nat
}.

Definition sink : MediaSink.Sink State :=
  fun B c s =>
    match c in MediaSink.Call B return B * State with
    | MediaSink.OnEnded _ => (nullptr, s)
    | MediaSink.GetEndTime _ => (position s, s)
    | MediaSink.GetPosition _ => (position s, s)
    | MediaSink.HasUnplayedFrames _ => (false, s)
    | MediaSink.UnplayedDuration _ => (position s, s)
    | MediaSink.SetVolume _ => (tt, s)
    | MediaSink.SetStreamName aStreamName =>
        (tt, {| startResult := startResult s; position := position s;
                rate := rate s; streamName := aStreamName;
                started := started s; playing := playing s;
                starts := starts s; shutdowns := shutdowns s |})
    | MediaSink.SetPlaybackRate aPlaybackRate =>
        (tt, {| startResult := startResult s; position := position s;
                rate := aPlaybackRate; streamName := streamName s;
                started := started s; playing := playing s;
                starts := starts s; shutdowns := shutdowns s |})
    | MediaSink.SetPreservesPitch _ => (tt, s)
    | MediaSink.SetPlaying aPlaying =>
        (tt, {| startResult := startResult s; position := position s;
                rate := rate s; streamName := streamName s;
                started := started s; playing := aPlaying;
                starts := starts s; shutdowns := shutdowns s |})
    | MediaSink.PlaybackRate => (rate s, s)
    | MediaSink.Redraw _ => (tt, s)
    | MediaSink.Start aStartTime aInfo =>
        (startResult s,
         {| startResult := startResult s; position := position s;
            rate := rate s; streamName := streamName s;
            started := NS_SUCCEEDED (startResult s); playing := playing s;
            starts := (starts s ++ [(aStartTime, aInfo)])%list;
            shutdowns := shutdowns s |})
    | MediaSink.Stop =>
        (tt, {| startResult := startResult s; position := position s;
                rate := rate s; streamName := streamName s;
                started := false; playing := playing s;
                starts := starts s; shutdowns := shutdowns s |})
    | MediaSink.IsStarted => (started s, s)
    | MediaSink.IsPlaying => (playing s, s)
    | MediaSink.AudioDevice => (nullptr, s)
    | MediaSink.Shutdown =>
        (tt, {| startResult := startResult s; position := position s;
                rate := rate s; streamName := streamName s;
                started := false; playing := playing s;
                starts := starts s; shutdowns := S (shutdowns s) |})
    | MediaSink.SetSecondaryVideoContainer _ => (tt, s)
    | MediaSink.GetDebugInfo _ => (tt, s)
    end.

End Recorder.

(** A fresh recorder whose [Start] will return [rv], positioned at [pos]. *)
Definition fresh (rv : nsresult) (pos : Z) : @State types :=
  {| startResult := rv; position := pos : @TimeUnit types;
     rate := 1 : @double types; streamName := EmptyString;
     started := false; playing := false; starts := []; shutdowns := 0 |}.

(** A sink that keeps time: [GetPosition] with a non-null pointer writes the
    sink's clock reading into the [TimeStamp] object pointed to.  The world is
    the memory holding those objects. *)
Definition stamping (clock : Z) : @MediaSink.Sink types (nat -> option Z) :=
  fun B c mem =>
    match c in MediaSink.Call B return B * (nat -> option Z) with
    | MediaSink.OnEnded _ => (nullptr, mem)
    | MediaSink.GetEndTime _ => (0, mem)
    | MediaSink.GetPosition aTimeStamp =>
        (0, match aTimeStamp with
            | Some a => fun a' => if Nat.eqb a' a then Some clock else mem a'
            | None => mem
            end)
    | MediaSink.HasUnplayedFrames _ => (false, mem)
    | MediaSink.UnplayedDuration _ => (0, mem)
    | MediaSink.SetVolume _ => (tt, mem)
    | MediaSink.SetStreamName _ => (tt, mem)
    | MediaSink.SetPlaybackRate _ => (tt, mem)
    | MediaSink.SetPreservesPitch _ => (tt, mem)
    | MediaSink.SetPlaying _ => (tt, mem)
    | MediaSink.PlaybackRate => (1, mem)
    | MediaSink.Redraw _ => (tt, mem)
    | MediaSink.Start _ _ => (NS_OK, mem)
    | MediaSink.Stop => (tt, mem)
    | MediaSink.IsStarted => (false, mem)
    | MediaSink.IsPlaying => (false, mem)
    | MediaSink.AudioDevice => (nullptr, mem)
    | MediaSink.Shutdown => (tt, mem)
    | MediaSink.SetSecondaryVideoContainer _ => (tt, mem)
    | MediaSink.GetDebugInfo _ => (tt, mem)
    end.

(** A composite over two recorders that share nothing, and a world in which
    the primary starts and sits at position 7 while the secondary fails to
    start and sits at position 99. *)
Definition recorders
  : @MultiplexerSink.Object types (@State types * @State types) :=
  apart sink sink.

Definition world : @State types * @State types :=
  (fresh NS_OK 7, fresh NS_ERROR_FAILURE 99).

(** The same recorders in another world: other positions, same results. *)
Definition other_world : @State types * @State types :=
  (fresh NS_OK 5, fresh NS_ERROR_FAILURE 9).

(** Arguments for the examples: the spec's scenario starts at time 0 with a
    stream that has audio and video. *)
Definition time0 : @TimeUnit types := 0.

Definition audio_video : @MediaInfo types := (true, true).

Definition volume3 : @double types := 3.


End TestDouble.

(** ** The spec's dispatch table *)

(** The policy the spec's table assigns to each operation of the composite
    (spec, section 4.2), to be compared with the bodies above. *)
Inductive Policy : Type :=
| PrimaryOnlyQuery
| PrimaryOnlyMutate
| BothMutate
| BothMutateMerge
| Diagnostics.

Definition spec_policy `{MediaTypes} {B : Type} (c : MediaSink.Call B)
  : Policy :=
  match c with
  | MediaSink.OnEnded _ | MediaSink.GetEndTime _ | MediaSink.GetPosition _
  | MediaSink.HasUnplayedFrames _ | MediaSink.UnplayedDuration _
  | MediaSink.IsStarted | MediaSink.IsPlaying | MediaSink.AudioDevice
  | MediaSink.PlaybackRate => PrimaryOnlyQuery
  | MediaSink.SetVolume _ | MediaSink.SetPreservesPitch _ => PrimaryOnlyMutate
  | MediaSink.SetStreamName _ | MediaSink.SetPlaybackRate _
  | MediaSink.SetPlaying _ | MediaSink.Redraw _ | MediaSink.Stop
  | MediaSink.Shutdown | MediaSink.SetSecondaryVideoContainer _ => BothMutate
  | MediaSink.Start _ _ => BothMutateMerge
  | MediaSink.GetDebugInfo _ => Diagnostics
  end.

(** ** The spec's wording of the Start merge rule *)

(** The rule the spec states for the result [r] of the composite's [Start]
    from the results [p] and [s] of the two sinks: the common result if they
    are equal; success if either is a success; a failure only when both are
    failures. *)
Definition spec_merge_rule (p s r : nsresult) : Prop :=
  (p = s -> r = p) /\
  (NS_SUCCEEDED p = true \/ NS_SUCCEEDED s = true -> NS_SUCCEEDED r = true) /\
  (NS_FAILED r = true -> NS_FAILED p = true /\ NS_FAILED s = true).

(** ** The composite as a sink, and sessions *)

Section Composition.
Context `{MediaTypes}.

(** The value the [if] chain of lines 127-135 returns from the two results
    obtained at lines 125-126. *)
Definition merged (videoSinkRes decodedStreamRes : nsresult) : nsresult :=
  if videoSinkRes =? decodedStreamRes then videoSinkRes
  else if videoSinkRes =? NS_OK then decodedStreamRes
  else if decodedStreamRes =? NS_OK then videoSinkRes
  else NS_ERROR_FAILURE.

(** The methods whose body also calls [mDecodedStream] (lines 95, 100, 111,
    120, 126, 140, 153, 159). *)
Definition forwarded {B : Type} (c : MediaSink.Call B) : bool :=
  match c with
  | MediaSink.SetStreamName _ | MediaSink.SetPlaybackRate _
  | MediaSink.SetPlaying _ | MediaSink.Redraw _ | MediaSink.Start _ _
  | MediaSink.Stop | MediaSink.Shutdown
  | MediaSink.SetSecondaryVideoContainer _ => true
  | _ => false
  end.

(** What a method that calls both members returns, from the value the
    primary returned and the value the secondary returned: [Start] merges
    them; the others are [void]. *)
Definition combined {B : Type} (c : MediaSink.Call B) : B -> B -> B :=
  match c in MediaSink.Call B return B -> B -> B with
  | MediaSink.Start _ _ => merged
  | _ => fun _ b => b
  end.

(** [MultiplexerSink] derives from [MediaSink] (line 15): the object is a
    sink, whose virtual calls run the overriding bodies.  So a composite can
    be a member of another composite. *)
Definition as_sink {St : Type} (self : MultiplexerSink.Object St)
  : MediaSink.Sink St :=
  fun B c st =>
    (result (run self (MultiplexerSink.dispatch c) st),
     final (run self (MultiplexerSink.dispatch c) st)).

(** One call made by the driver of a sink, its return type packed. *)
Inductive Request : Type :=
| Ask (B : Type) (c : MediaSink.Call B).

Definition forwarded_request (r : Request) : bool :=
  match r with Ask _ c => forwarded c end.

(** A session: the driver makes the calls of [rs] one after the other, on
    the sink [s].  The world afterwards. *)
Fixpoint session {St : Type} (s : MediaSink.Sink St) (rs : list Request)
  (st : St) : St :=
  match rs with
  | [] => st
  | Ask _ c :: rs' => session s rs' (snd (s _ c st))
  end.

(** The delegate calls of a whole session on the composite. *)
Fixpoint session_calls {St : Type} (self : MultiplexerSink.Object St)
  (rs : list Request) (st : St) : list Event :=
  match rs with
  | [] => []
  | Ask _ c :: rs' =>
      (calls (run self (MultiplexerSink.dispatch c) st) ++
       session_calls self rs'
         (final (run self (MultiplexerSink.dispatch c) st)))%list
  end.

(** The requests one member received, read back from the delegate calls. *)
Fixpoint received (m : Member) (tr : list Event) : list Request :=
  match tr with
  | [] => []
  | Calls m' c :: tr' =>
      if Member_eqb m m' then Ask _ c :: received m tr' else received m tr'
  end.

End Composition.

Arguments Ask {_ B} c.

(** ** The object and its members *)

(** The class once more, with the object made explicit.  An object of the
    class is its two [RefPtr<MediaSink>] members (lines 44-45), each holding
    the identity of a sink object; a method runs on [this].  So that what a
    method does to the object is read off its body and not off a type, a
    body is written in the statements a member function can be made of: a
    virtual call through a member, and an assignment to a member. *)
Module WithThis.
Section Class.
Context `{MediaTypes} {R : Type}.

(** The object: what each member holds.  [R] is the type of the identities
    of sink objects. *)
Definition Fields : Type := Member -> R.

(** Lines 61-63. *)
Definition MultiplexerSink (aVideoSink aDecodedStream : R) : Fields :=
  fun m => match m with
           | mVideoSink => aVideoSink
           | mDecodedStream => aDecodedStream
           end.

(** The object after [this->m = r]. *)
Definition assign (this : Fields) (m : Member) (r : R) : Fields :=
  fun m' => if Member_eqb m m' then r else this m'.

(** [Via m c k] is [x = this->m->c(...); k x]; [Assign m e k] is
    [this->m = e; k], where [e] may read the members. *)
Inductive Stmt (A : Type) : Type :=
| Return (a : A)
| Via (B : Type) (m : Member) (c : MediaSink.Call B) (k : B -> Stmt A)
| Assign (m : Member) (e : Fields -> R) (k : Stmt A).

Arguments Return {A} a.
Arguments Via {A B} m c k.
Arguments Assign {A} m e k.

(** Lines 65-68. *)
Definition OnEnded (aType : TrackType) : Stmt (ptr EndedPromise) :=
  Via mVideoSink (MediaSink.OnEnded aType) Return.

(** Lines 70-72. *)
Definition GetEndTime (aType : TrackType) : Stmt TimeUnit :=
  Via mVideoSink (MediaSink.GetEndTime aType) Return.

(** Lines 74-76. *)
Definition GetPosition (aTimeStamp : ptr TimeStamp) : Stmt TimeUnit :=
  Via mVideoSink (MediaSink.GetPosition aTimeStamp) Return.

(** Lines 78-80. *)
Definition HasUnplayedFrames (aType : TrackType) : Stmt bool :=
  Via mVideoSink (MediaSink.HasUnplayedFrames aType) Return.

(** Lines 82-84. *)
Definition UnplayedDuration (aType : TrackType) : Stmt TimeUnit :=
  Via mVideoSink (MediaSink.UnplayedDuration aType) Return.

(** Lines 86-91. *)
Definition SetVolume (aVolume : double) : Stmt unit :=
  Via mVideoSink (MediaSink.SetVolume aVolume) Return.

(** Lines 93-96. *)
Definition SetStreamName (aStreamName : string) : Stmt unit :=
  Via mVideoSink (MediaSink.SetStreamName aStreamName) (fun _ =>
  Via mDecodedStream (MediaSink.SetStreamName aStreamName) Return).

(** Lines 98-101. *)
Definition SetPlaybackRate (aPlaybackRate : double) : Stmt unit :=
  Via mVideoSink (MediaSink.SetPlaybackRate aPlaybackRate) (fun _ =>
  Via mDecodedStream (MediaSink.SetPlaybackRate aPlaybackRate) Return).

(** Lines 103-107. *)
Definition SetPreservesPitch (aPreservesPitch : bool) : Stmt unit :=
  Via mVideoSink (MediaSink.SetPreservesPitch aPreservesPitch) Return.

(** Lines 109-112. *)
Definition SetPlaying (aPlaying : bool) : Stmt unit :=
  Via mVideoSink (MediaSink.SetPlaying aPlaying) (fun _ =>
  Via mDecodedStream (MediaSink.SetPlaying aPlaying) Return).

(** Lines 114-116. *)
Definition PlaybackRate : Stmt double :=
  Via mVideoSink MediaSink.PlaybackRate Return.

(** Lines 118-121. *)
Definition Redraw (aInfo : VideoInfo) : Stmt unit :=
  Via mVideoSink (MediaSink.Redraw aInfo) (fun _ =>
  Via mDecodedStream (MediaSink.Redraw aInfo) Return).

(** Lines 123-136. *)
Definition Start (aStartTime : TimeUnit) (aInfo : MediaInfo) : Stmt nsresult :=
  Via mVideoSink (MediaSink.Start aStartTime aInfo) (fun videoSinkRes =>
  Via mDecodedStream (MediaSink.Start aStartTime aInfo)
    (fun decodedStreamRes =>
  if videoSinkRes =? decodedStreamRes then Return videoSinkRes
  else if videoSinkRes =? NS_OK then Return decodedStreamRes
  else if decodedStreamRes =? NS_OK then Return videoSinkRes
  else Return NS_ERROR_FAILURE)).

(** Lines 138-141. *)
Definition Stop : Stmt unit :=
  Via mVideoSink MediaSink.Stop (fun _ =>
  Via mDecodedStream MediaSink.Stop Return).

(** Line 143. *)
Definition IsStarted : Stmt bool :=
  Via mVideoSink MediaSink.IsStarted Return.

(** Line 145. *)
Definition IsPlaying : Stmt bool :=
  Via mVideoSink MediaSink.IsPlaying Return.

(** Lines 147-149. *)
Definition AudioDevice : Stmt (ptr AudioDeviceInfo) :=
  Via mVideoSink MediaSink.AudioDevice Return.

(** Lines 151-154. *)
Definition Shutdown : Stmt unit :=
  Via mVideoSink MediaSink.Shutdown (fun _ =>
  Via mDecodedStream MediaSink.Shutdown Return).

(** Lines 156-160. *)
Definition SetSecondaryVideoContainer (aSecondary : ptr VideoFrameContainer)
  : Stmt unit :=
  Via mVideoSink (MediaSink.SetSecondaryVideoContainer aSecondary) (fun _ =>
  Via mDecodedStream (MediaSink.SetSecondaryVideoContainer aSecondary) Return).

(** Lines 162-165. *)
Definition GetDebugInfo (aInfo : MediaSinkDebugInfo) : Stmt unit :=
  Via mVideoSink (MediaSink.GetDebugInfo aInfo) Return.

(** The [override]s of lines 19-39. *)
Definition dispatch {B : Type} (c : MediaSink.Call B) : Stmt B :=
  match c with
  | MediaSink.OnEnded aType => OnEnded aType
  | MediaSink.GetEndTime aType => GetEndTime aType
  | MediaSink.GetPosition aTimeStamp => GetPosition aTimeStamp
  | MediaSink.HasUnplayedFrames aType => HasUnplayedFrames aType
  | MediaSink.UnplayedDuration aType => UnplayedDuration aType
  | MediaSink.SetVolume aVolume => SetVolume aVolume
  | MediaSink.SetStreamName aStreamName => SetStreamName aStreamName
  | MediaSink.SetPlaybackRate aPlaybackRate => SetPlaybackRate aPlaybackRate
  | MediaSink.SetPreservesPitch aPreservesPitch =>
      SetPreservesPitch aPreservesPitch
  | MediaSink.SetPlaying aPlaying => SetPlaying aPlaying
  | MediaSink.PlaybackRate => PlaybackRate
  | MediaSink.Redraw aInfo => Redraw aInfo
  | MediaSink.Start aStartTime aInfo => Start aStartTime aInfo
  | MediaSink.Stop => Stop
  | MediaSink.IsStarted => IsStarted
  | MediaSink.IsPlaying => IsPlaying
  | MediaSink.AudioDevice => AudioDevice
  | MediaSink.Shutdown => Shutdown
  | MediaSink.SetSecondaryVideoContainer aSecondary =>
      SetSecondaryVideoContainer aSecondary
  | MediaSink.GetDebugInfo aInfo => GetDebugInfo aInfo
  end.

(** One delegate call, as the sink object that received it sees it. *)
Inductive Delivery : Type :=
| Delivered (r : R) (B : Type) (c : MediaSink.Call B).

(** The outcome of running a body: the value returned, the object and the
    world afterwards, and the calls delivered, in order. *)
Record Outcome (St A : Type) : Type := {
  value : A;
  object : Fields;
  world : St;
  deliveries : list Delivery
}.

Arguments value {St A} _.
Arguments object {St A} _.
Arguments world {St A} _.
Arguments deliveries {St A} _.

(** [run sinks s this st] executes the body [s] on the object [this] from the
    world [st].  [sinks r] is the behaviour of the sink object [r]; a call
    through a member goes to the object the member holds at that moment. *)
Fixpoint run {St A : Type} (sinks : R -> MediaSink.Sink St) (s : Stmt A)
  (this : Fields) (st : St) : Outcome St A :=
  match s with
  | Return a =>
      {| value := a; object := this; world := st; deliveries := [] |}
  | Via m c k =>
      let o := run sinks (k (fst (sinks (this m) _ c st))) this
                   (snd (sinks (this m) _ c st)) in
      {| value := value o; object := object o; world := world o;
         deliveries := Delivered (this m) _ c :: deliveries o |}
  | Assign m e k => run sinks k (assign this m (e this)) st
  end.

(** The object and the world after a history of calls on the composite. *)
Fixpoint history {St : Type} (sinks : R -> MediaSink.Sink St)
  (rs : list Request) (this : Fields) (st : St) : Fields * St :=
  match rs with
  | [] => (this, st)
  | Ask c :: rs' =>
      history sinks rs' (object (run sinks (dispatch c) this st))
              (world (run sinks (dispatch c) this st))
  end.

(** Two runs of one body in which the sinks return equal results: at every
    delegate call reached, the sink called in the first run and the sink
    called in the second run answer with the same value.  The objects, the
    worlds and the sinks' behaviours may differ. *)
Fixpoint agree {St1 St2 A : Type} (s : Stmt A)
  (sinks1 : R -> MediaSink.Sink St1) (this1 : Fields) (st1 : St1)
  (sinks2 : R -> MediaSink.Sink St2) (this2 : Fields) (st2 : St2) : Prop :=
  match s with
  | Return _ => True
  | Via m c k =>
      fst (sinks1 (this1 m) _ c st1) = fst (sinks2 (this2 m) _ c st2) /\
      agree (k (fst (sinks1 (this1 m) _ c st1)))
            sinks1 this1 (snd (sinks1 (this1 m) _ c st1))
            sinks2 this2 (snd (sinks2 (this2 m) _ c st2))
  | Assign m e k =>
      agree k sinks1 (assign this1 m (e this1)) st1
              sinks2 (assign this2 m (e this2)) st2
  end.

(** A body without an assignment to a member. *)
Inductive Reads {A : Type} : Stmt A -> Prop :=
| Reads_Return (a : A) : Reads (Return a)
| Reads_Via (B : Type) (m : Member) (c : MediaSink.Call B)
    (k : B -> Stmt A) :
    (forall b : B, Reads (k b)) -> Reads (Via m c k).

(** A body a class with assignable members could have: it makes the member
    [mVideoSink] refer to the sink [mDecodedStream] holds, then answers one
    call through [mVideoSink]. *)
Definition rebinding {B : Type} (c : MediaSink.Call B) : Stmt B :=
  Assign mVideoSink (fun this => this mDecodedStream)
    (Via mVideoSink c Return).

End Class.

Arguments Return {_ R A} a.
Arguments Via {_ R A B} m c k.
Arguments Assign {_ R A} m e k.
Arguments Delivered {_ R} r {B} c.
Arguments value {_ R St A} _.
Arguments object {_ R St A} _.
Arguments world {_ R St A} _.
Arguments deliveries {_ R St A} _.

End WithThis.

(** The two recorders as sink objects with identities: object 0 lives in
    the first half of the world, every other object in the second. *)
Definition numbered (r : nat)
  : @MediaSink.Sink TestDouble.types
      (@TestDouble.State TestDouble.types * @TestDouble.State TestDouble.types) :=
  match r with
  | O => on_fst TestDouble.sink
  | S _ => on_snd TestDouble.sink
  end.

(** A history of calls on the composite. *)
Definition played_then_stopped : list (@Request TestDouble.types) :=
  [Ask (H := TestDouble.types) (MediaSink.SetPlaying true);
   Ask (H := TestDouble.types) MediaSink.Stop].

(** * Properties *)

Section RunFacts.
Context `{MediaTypes} {St : Type}.
Variable self : MultiplexerSink.Object St.

Lemma run_Invoke {A B : Type} (m : Member) (c : MediaSink.Call B)
  (k : B -> Prog A) (st : St) :
  run self (Invoke m c k) st =
  (result (run self (k (fst (self m _ c st))) (snd (self m _ c st))),
   final (run self (k (fst (self m _ c st))) (snd (self m _ c st))),
   Calls m c :: calls (run self (k (fst (self m _ c st))) (snd (self m _ c st)))).
Proof.
  simpl. destruct (self m B c st) as [b st1]. simpl.
  destruct (run self (k b) st1) as [[a st2] tr]. reflexivity.
Qed.

Lemma run_call {B : Type} (m : Member) (c : MediaSink.Call B) (st : St) :
  run self (call m c) st =
  (fst (self m _ c st), snd (self m _ c st), [Calls m c]).
Proof. unfold call. rewrite run_Invoke. reflexivity. Qed.

Lemma run_bind {A C : Type} (p : Prog A) (k : A -> Prog C) (st : St) :
  run self (bind p k) st =
  (result (run self (k (result (run self p st))) (final (run self p st))),
   final (run self (k (result (run self p st))) (final (run self p st))),
   (calls (run self p st) ++
    calls (run self (k (result (run self p st))) (final (run self p st))))%list).
Proof.
  revert st. induction p as [a | B m c k' IH]; intro st.
  - unfold result, final, calls. simpl.
    destruct (run self (k a) st) as [[? ?] ?]. reflexivity.
  - cbn [bind]. rewrite !run_Invoke. rewrite IH. reflexivity.
Qed.

(** What a method that calls the first member and then the second, with the
    same call, does. *)
Lemma run_both (c : MediaSink.Call unit) (st : St) :
  run self (bind (call mVideoSink c) (fun _ => call mDecodedStream c)) st =
  (fst (self mDecodedStream _ c (snd (self mVideoSink _ c st))),
   snd (self mDecodedStream _ c (snd (self mVideoSink _ c st))),
   [Calls mVideoSink c; Calls mDecodedStream c]).
Proof. rewrite run_bind, !run_call. reflexivity. Qed.

Lemma run_Start (t : TimeUnit) (i : MediaInfo) (st : St) :
  let p := fst (self mVideoSink _ (MediaSink.Start t i) st) in
  let st1 := snd (self mVideoSink _ (MediaSink.Start t i) st) in
  let s := fst (self mDecodedStream _ (MediaSink.Start t i) st1) in
  let st2 := snd (self mDecodedStream _ (MediaSink.Start t i) st1) in
  run self (MultiplexerSink.Start t i) st =
  (if p =? s then p
   else if p =? NS_OK then s else if s =? NS_OK then p else NS_ERROR_FAILURE,
   st2,
   [Calls mVideoSink (MediaSink.Start t i);
    Calls mDecodedStream (MediaSink.Start t i)]).
Proof.
  intros p st1 s st2. unfold MultiplexerSink.Start, call. cbn [bind].
  rewrite !run_Invoke. fold p st1. fold s st2.
  destruct (p =? s); [reflexivity |].
  destruct (p =? NS_OK); [reflexivity |].
  destruct (s =? NS_OK); reflexivity.
Qed.

End RunFacts.

(** ** Start *)

Section StartProperties.
Context `{MediaTypes} {St : Type}.
Variable self : MultiplexerSink.Object St.

(** C1, as amended.  With [p] the result of the primary's [Start] and [s] the
    result of the secondary's, the composite's [Start] returns the common
    result when [p = s]; the other result when one of them is [NS_OK]; and
    [NS_ERROR_FAILURE] when they differ and neither is [NS_OK].  So it
    returns [NS_OK] exactly when both sinks do, and it returns a failure as
    soon as either sink fails. *)
Theorem Start_merges_results (t : TimeUnit) (i : MediaInfo) (st : St) :
  let p := fst (self mVideoSink _ (MediaSink.Start t i) st) in
  let st1 := snd (self mVideoSink _ (MediaSink.Start t i) st) in
  let s := fst (self mDecodedStream _ (MediaSink.Start t i) st1) in
  let r := result (run self (MultiplexerSink.Start t i) st) in
  (p = s -> r = p) /\
  (p = NS_OK -> r = s) /\
  (s = NS_OK -> r = p) /\
  (p <> s -> p <> NS_OK -> s <> NS_OK -> r = NS_ERROR_FAILURE) /\
  (r = NS_OK <-> p = NS_OK /\ s = NS_OK) /\
  (NS_FAILED p = true \/ NS_FAILED s = true -> NS_FAILED r = true).
Proof.
  intros p st1 s r.
  assert (Hr : r = if p =? s then p
                   else if p =? NS_OK then s
                        else if s =? NS_OK then p else NS_ERROR_FAILURE).
  { unfold r. rewrite run_Start. reflexivity. }
  clearbody p s r. clear st1. rewrite Hr. clear Hr r.
  destruct (Z.eqb_spec p s) as [Eps | Nps];
    [| destruct (Z.eqb_spec p NS_OK) as [Ep | Np];
       [| destruct (Z.eqb_spec s NS_OK) as [Es | Ns]]].
  - subst s. repeat split; try tauto; try congruence.
  - subst p. repeat split; try tauto; try congruence.
    intros [Hp | Hs]; [discriminate Hp | exact Hs].
  - subst s. repeat split; try tauto; try congruence.
    intros [Hp | Hs]; [exact Hp | discriminate Hs].
  - repeat split; try tauto; try congruence; try discriminate.
Qed.

(** C2.  One call of the composite's [Start] issues exactly two delegate
    calls: [Start] on the primary, then [Start] on the secondary, whatever
    the primary's [Start] returned; each sink is started exactly once and the
    secondary's [Start] runs in the world the primary's [Start] left. *)
Theorem Start_reaches_both_sinks_once (t : TimeUnit) (i : MediaInfo) (st : St) :
  let o := run self (MultiplexerSink.Start t i) st in
  calls o = [Calls mVideoSink (MediaSink.Start t i);
             Calls mDecodedStream (MediaSink.Start t i)] /\
  times mVideoSink "Start" (calls o) = 1%nat /\
  times mDecodedStream "Start" (calls o) = 1%nat /\
  final o = snd (self mDecodedStream _ (MediaSink.Start t i)
                   (snd (self mVideoSink _ (MediaSink.Start t i) st))).
Proof.
  intro o. unfold o. rewrite run_Start. repeat split.
Qed.

(** C9.  Both [Start] calls carry the caller's argument pair unchanged: each
    member receives exactly [(aStartTime, aInfo)]. *)
Theorem Start_passes_its_arguments_to_both (t : TimeUnit) (i : MediaInfo)
  (st : St) :
  let o := run self (MultiplexerSink.Start t i) st in
  map start_arguments (calls o) = [Some (t, i); Some (t, i)] /\
  started_with mVideoSink (calls o) = [(t, i)] /\
  started_with mDecodedStream (calls o) = [(t, i)].
Proof.
  intro o. unfold o. rewrite run_Start. repeat split.
Qed.

End StartProperties.

(** C1, refuted as stated.  With a primary whose [Start] returns [NS_OK] and
    a secondary whose [Start] returns [NS_ERROR_FAILURE], the composite
    returns [NS_ERROR_FAILURE], a failure, although one sink succeeded. *)
Lemma Start_fails_when_only_secondary_fails :
  let o := run TestDouble.recorders
             (MultiplexerSink.Start TestDouble.time0 TestDouble.audio_video)
             (TestDouble.fresh NS_OK 0, TestDouble.fresh NS_ERROR_FAILURE 0) in
  result o = NS_ERROR_FAILURE /\
  NS_SUCCEEDED NS_OK = true /\
  NS_SUCCEEDED (result o) = false /\
  (spec_merge_rule NS_OK NS_ERROR_FAILURE (result o) -> False).
Proof.
  cbv zeta. repeat split.
  intros (_ & Hsucc & _).
  assert (Hs : NS_SUCCEEDED NS_OK = true) by reflexivity.
  specialize (Hsucc (or_introl Hs)). vm_compute in Hsucc. discriminate Hsucc.
Qed.

(** ** Forwarding *)

Section Forwarding.
Context `{MediaTypes}.

(** The bodies of the operations the table answers from the primary alone
    are a single call on [mVideoSink], with the caller's arguments. *)
Lemma primary_only_body {B : Type} (c : MediaSink.Call B) :
  spec_policy c = PrimaryOnlyQuery \/ spec_policy c = PrimaryOnlyMutate \/
  spec_policy c = Diagnostics ->
  MultiplexerSink.dispatch c = call mVideoSink c.
Proof.
  destruct c; intros [E | [E | E]]; try discriminate E; reflexivity.
Qed.

(** The operations the table applies to both run the call on [mVideoSink]
    and then the same call on [mDecodedStream], in the world the first left. *)
Lemma run_both_policy {St B : Type} (self : MultiplexerSink.Object St)
  (c : MediaSink.Call B) (st : St) :
  spec_policy c = BothMutate ->
  run self (MultiplexerSink.dispatch c) st =
  (fst (self mDecodedStream _ c (snd (self mVideoSink _ c st))),
   snd (self mDecodedStream _ c (snd (self mVideoSink _ c st))),
   [Calls mVideoSink c; Calls mDecodedStream c]).
Proof.
  destruct c; intro E; try discriminate E; apply run_both.
Qed.

Lemma both_policy_void {B : Type} (c : MediaSink.Call B) :
  spec_policy c = BothMutate -> B = unit.
Proof. destruct c; intro E; try discriminate E; reflexivity. Qed.

(** C3.  A query of the composite (OnEnded, GetEndTime, GetPosition,
    HasUnplayedFrames, UnplayedDuration, IsStarted, IsPlaying, AudioDevice,
    PlaybackRate) issues one delegate call, the same call on the primary;
    it returns the primary's value and leaves the world as the primary's
    call left it; no call reaches the secondary, and replacing the secondary
    by any other sink changes nothing. *)
Theorem queries_answered_by_primary {St B : Type}
  (v d : MediaSink.Sink St) (c : MediaSink.Call B) (st : St) :
  spec_policy c = PrimaryOnlyQuery ->
  let o := run (MultiplexerSink.MultiplexerSink v d)
               (MultiplexerSink.dispatch c) st in
  result o = fst (v _ c st) /\
  final o = snd (v _ c st) /\
  calls o = [Calls mVideoSink c] /\
  reached mDecodedStream (calls o) = false /\
  (forall d' : MediaSink.Sink St,
      run (MultiplexerSink.MultiplexerSink v d')
          (MultiplexerSink.dispatch c) st = o).
Proof.
  intros E o. unfold o.
  rewrite (primary_only_body c (or_introl E)).
  setoid_rewrite run_call. repeat split.
Qed.

(** C4.  Each of SetStreamName, SetPlaybackRate, SetPlaying, Redraw, Stop,
    Shutdown and SetSecondaryVideoContainer returns no value and issues two
    delegate calls: the same operation with the same argument on the primary
    and then on the secondary, which runs in the world the primary left.
    With two recording sinks, both have the name [x] after
    [SetStreamName x]. *)
Theorem both_mutators_reach_primary_then_secondary {St B : Type}
  (self : MultiplexerSink.Object St) (c : MediaSink.Call B) (st : St) :
  spec_policy c = BothMutate ->
  let o := run self (MultiplexerSink.dispatch c) st in
  B = unit /\
  calls o = [Calls mVideoSink c; Calls mDecodedStream c] /\
  final o = snd (self mDecodedStream _ c (snd (self mVideoSink _ c st))) /\
  (forall (x : string) (p q : TestDouble.State),
      let o' := run (apart TestDouble.sink TestDouble.sink)
                    (MultiplexerSink.SetStreamName x) (p, q) in
      TestDouble.streamName (fst (final o')) = x /\
      TestDouble.streamName (snd (final o')) = x).
Proof.
  intros E o. unfold o. rewrite (run_both_policy self c st E).
  split; [exact (both_policy_void c E) |].
  repeat split.
Qed.

(** C6.  SetVolume and SetPreservesPitch, and GetDebugInfo, issue one
    delegate call, the same call on the primary; no call reaches the
    secondary, replacing the secondary by any other sink changes nothing,
    and a secondary that shares nothing with the primary is left as it
    was. *)
Theorem primary_only_mutators_skip_secondary {St B : Type}
  (v d : MediaSink.Sink St) (c : MediaSink.Call B) (st : St) :
  spec_policy c = PrimaryOnlyMutate \/ spec_policy c = Diagnostics ->
  let o := run (MultiplexerSink.MultiplexerSink v d)
               (MultiplexerSink.dispatch c) st in
  calls o = [Calls mVideoSink c] /\
  reached mDecodedStream (calls o) = false /\
  final o = snd (v _ c st) /\
  (forall d' : MediaSink.Sink St,
      run (MultiplexerSink.MultiplexerSink v d')
          (MultiplexerSink.dispatch c) st = o) /\
  (forall (P Q : Type) (v' : MediaSink.Sink P) (d' : MediaSink.Sink Q)
          (p : P) (q : Q),
      snd (final (run (apart v' d') (MultiplexerSink.dispatch c) (p, q))) = q).
Proof.
  intros E o. unfold o.
  rewrite (primary_only_body c (or_intror E)).
  setoid_rewrite run_call. repeat split.
  intros P Q v' d' p q. unfold final, apart, on_fst. simpl.
  destruct (v' B c p). reflexivity.
Qed.

(** C10.  [GetPosition] issues one delegate call, [GetPosition] on the
    primary, carrying the caller's pointer as it is (null when the caller
    omitted it).  The value and the world afterwards are those of the
    primary's call, so whatever was written through the pointer was written
    by the primary; no call reaches the secondary, and replacing the
    secondary by any other sink changes nothing. *)
Theorem GetPosition_hands_the_pointer_to_primary_only {St : Type}
  (v d : MediaSink.Sink St) (aTimeStamp : ptr TimeStamp) (st : St) :
  let o := run (MultiplexerSink.MultiplexerSink v d)
               (MultiplexerSink.GetPosition aTimeStamp) st in
  calls o = [Calls mVideoSink (MediaSink.GetPosition aTimeStamp)] /\
  map position_pointer (calls o) = [Some aTimeStamp] /\
  reached mDecodedStream (calls o) = false /\
  result o = fst (v _ (MediaSink.GetPosition aTimeStamp) st) /\
  final o = snd (v _ (MediaSink.GetPosition aTimeStamp) st) /\
  (forall d' : MediaSink.Sink St,
      run (MultiplexerSink.MultiplexerSink v d')
          (MultiplexerSink.GetPosition aTimeStamp) st = o) /\
  map position_pointer
      (calls (run (MultiplexerSink.MultiplexerSink v d)
                  MultiplexerSink.GetPosition_default st))
  = [Some nullptr].
Proof.
  intro o. unfold o, MultiplexerSink.GetPosition_default,
    MultiplexerSink.GetPosition.
  setoid_rewrite run_call. repeat split.
Qed.

End Forwarding.

(** ** Shutdown and exceptions *)

Section ShutdownProperties.
Context `{MediaTypes} {St : Type}.

(** Against sinks that always return, [exec] is [run]. *)
Lemma exec_returning {A : Type} (self : MultiplexerSink.Object St)
  (p : Prog A) (st : St) :
  exec (fun m => MediaSink.returning (self m)) p st =
  (MediaSink.Normal (result (run self p st)),
   final (run self p st), calls (run self p st)).
Proof.
  revert st. induction p as [a | B m c k IH]; intro st.
  - reflexivity.
  - rewrite run_Invoke. simpl. unfold MediaSink.returning at 1.
    destruct (self m B c st) as [b st1]. rewrite IH. reflexivity.
Qed.

(** C5, as amended.  [Shutdown] invokes the primary's [Shutdown] exactly
    once.  When that call returns, the secondary's [Shutdown] is invoked
    exactly once after it, in the world the primary left, and the composite
    completes as the secondary's call does.  When that call throws, no
    handler catches it: the secondary's [Shutdown] is not invoked and the
    exception reaches the caller.  Against sinks whose calls always return,
    both are shut down exactly once and the composite returns. *)
Theorem Shutdown_reaches_secondary_when_primary_returns
  (self : MultiplexerSink.ThrowingObject St) (st : St) :
  let o := exec self MultiplexerSink.Shutdown st in
  times mVideoSink "Shutdown" (calls o) = 1%nat /\
  match self mVideoSink _ MediaSink.Shutdown st with
  | (MediaSink.Normal _, st1) =>
      calls o = [Calls mVideoSink MediaSink.Shutdown;
                 Calls mDecodedStream MediaSink.Shutdown] /\
      times mDecodedStream "Shutdown" (calls o) = 1%nat /\
      result o = fst (self mDecodedStream _ MediaSink.Shutdown st1) /\
      final o = snd (self mDecodedStream _ MediaSink.Shutdown st1)
  | (MediaSink.Thrown, st1) =>
      calls o = [Calls mVideoSink MediaSink.Shutdown] /\
      times mDecodedStream "Shutdown" (calls o) = 0%nat /\
      result o = MediaSink.Thrown /\
      final o = st1
  end /\
  (forall total : MultiplexerSink.Object St,
      let o' := exec (fun m => MediaSink.returning (total m))
                     MultiplexerSink.Shutdown st in
      result o' = MediaSink.Normal tt /\
      times mVideoSink "Shutdown" (calls o') = 1%nat /\
      times mDecodedStream "Shutdown" (calls o') = 1%nat).
Proof.
  intro o. unfold o, MultiplexerSink.Shutdown, call. cbn [bind].
  split; [| split].
  - simpl. destruct (self mVideoSink unit MediaSink.Shutdown st) as [[[] | ] st1].
    + destruct (self mDecodedStream unit MediaSink.Shutdown st1) as [[[] | ] st2];
        reflexivity.
    + reflexivity.
  - simpl. destruct (self mVideoSink unit MediaSink.Shutdown st) as [[[] | ] st1].
    + destruct (self mDecodedStream unit MediaSink.Shutdown st1) as [[[] | ] st2];
        repeat split.
    + repeat split.
  - intro total. cbv zeta.
    pose proof (exec_returning total MultiplexerSink.Shutdown st) as E.
    unfold MultiplexerSink.Shutdown, call in E. cbn [bind] in E. rewrite E.
    clear E. rewrite !run_Invoke. unfold result, final, calls. simpl.
    destruct (fst (total mDecodedStream unit MediaSink.Shutdown _)).
    repeat split.
Qed.

End ShutdownProperties.

(** C5, refuted as stated.  With a primary whose [Shutdown] throws, the
    composite's [Shutdown] issues the primary's call only: the exception
    reaches the caller and the secondary is never shut down. *)
Lemma Shutdown_stops_at_a_throwing_primary :
  let self : @MultiplexerSink.ThrowingObject TestDouble.types _ :=
    fun m => match m with
             | mVideoSink =>
                 throwing_from "Shutdown" (on_fst TestDouble.sink)
             | mDecodedStream => MediaSink.returning (on_snd TestDouble.sink)
             end in
  let o := exec self MultiplexerSink.Shutdown
             (TestDouble.fresh NS_OK 0, TestDouble.fresh NS_OK 0) in
  result o = MediaSink.Thrown /\
  times mVideoSink "Shutdown" (calls o) = 1%nat /\
  times mDecodedStream "Shutdown" (calls o) = 0%nat /\
  TestDouble.shutdowns (snd (final o)) = 0%nat.
Proof. cbv zeta. repeat split. Qed.

(** ** Playback rate *)

Section RateProperties.
Context `{MediaTypes} {P Q : Type}.
Local Open Scope prog_scope.


End RateProperties.

(** ** The theorems at work on the test doubles *)

Section Instances.
#[local] Existing Instance TestDouble.types.
Import TestDouble.

(** A position query on two recorders at different positions reports the
    primary's. *)
Lemma queries_answered_by_primary_witness :
  spec_policy (MediaSink.GetPosition nullptr) = PrimaryOnlyQuery /\
  result (run recorders (MultiplexerSink.GetPosition nullptr) world) = 7 /\
  reached mDecodedStream
    (calls (run recorders (MultiplexerSink.GetPosition nullptr) world))
  = false.
Proof.
  split; [reflexivity |].
  destruct (queries_answered_by_primary (on_fst sink) (on_snd sink)
              (MediaSink.GetPosition nullptr) world eq_refl)
    as (Hr & _ & _ & Hn & _).
  split; [exact Hr | exact Hn].
Defined.

(** Naming the stream reaches both recorders. *)
Lemma both_mutators_reach_primary_then_secondary_witness :
  spec_policy (MediaSink.SetStreamName "x") = BothMutate /\
  calls (run recorders (MultiplexerSink.SetStreamName "x") world) =
  [Calls mVideoSink (MediaSink.SetStreamName "x");
   Calls mDecodedStream (MediaSink.SetStreamName "x")] /\
  streamName
    (snd (final (run recorders (MultiplexerSink.SetStreamName "x") world)))
  = "x"%string.
Proof.
  split; [reflexivity |].
  destruct (both_mutators_reach_primary_then_secondary recorders
              (MediaSink.SetStreamName "x") world eq_refl)
    as (_ & Hc & _ & Hx).
  split; [exact Hc |].
  exact (proj2 (Hx "x"%string (fst world) (snd world))).
Defined.

(** Setting the volume leaves the secondary recorder alone. *)
Lemma primary_only_mutators_skip_secondary_witness :
  (spec_policy (MediaSink.SetVolume volume3) = PrimaryOnlyMutate \/
   spec_policy (MediaSink.SetVolume volume3) = Diagnostics) /\
  reached mDecodedStream
    (calls (run recorders (MultiplexerSink.SetVolume volume3) world))
  = false /\
  snd (final (run recorders (MultiplexerSink.SetVolume volume3) world))
  = snd world.
Proof.
  split; [left; reflexivity |].
  destruct (primary_only_mutators_skip_secondary (on_fst sink) (on_snd sink)
              (MediaSink.SetVolume volume3) world (or_introl eq_refl))
    as (_ & Hn & _ & _ & Hq).
  split; [exact Hn |].
  exact (Hq _ _ sink sink (fst world) (snd world)).
Defined.



(** The timestamp written by [GetPosition] is the primary's: with a primary
    whose clock reads 5 and a secondary whose clock reads 9, the caller's
    object holds 5 afterwards. *)
Example GetPosition_stamp_comes_from_primary :
  final (run (MultiplexerSink.MultiplexerSink (stamping 5) (stamping 9))
             (MultiplexerSink.GetPosition (Some 3%nat)) (fun _ => None)) 3%nat
  = Some 5.
Proof. reflexivity. Qed.

(** The spec's scenario of a failing primary: the primary's [Start] returns
    an error and the secondary's returns [NS_OK].  The composite returns the
    primary's error; both recorders were started once with the caller's
    arguments; [IsStarted] then reports the primary's state. *)
Example Start_with_failing_primary :
  let o := run recorders (MultiplexerSink.Start time0 audio_video)
             (fresh NS_ERROR_FAILURE 0, fresh NS_OK 0) in
  result o = NS_ERROR_FAILURE /\
  starts (fst (final o)) = [(time0, audio_video)] /\
  starts (snd (final o)) = [(time0, audio_video)] /\
  result (run recorders MultiplexerSink.IsStarted (final o)) = false /\
  started (snd (final o)) = true.
Proof. cbv zeta. repeat split. Qed.

End Instances.

(** * Further properties of the composite *)

(** ** Every method at once *)

Section Denotation.
Context `{MediaTypes} {St : Type}.

Ltac unfold_methods :=
  unfold MultiplexerSink.OnEnded, MultiplexerSink.GetEndTime,
    MultiplexerSink.GetPosition, MultiplexerSink.HasUnplayedFrames,
    MultiplexerSink.UnplayedDuration, MultiplexerSink.SetVolume,
    MultiplexerSink.SetStreamName, MultiplexerSink.SetPlaybackRate,
    MultiplexerSink.SetPreservesPitch, MultiplexerSink.SetPlaying,
    MultiplexerSink.PlaybackRate, MultiplexerSink.Redraw,
    MultiplexerSink.Stop, MultiplexerSink.IsStarted,
    MultiplexerSink.IsPlaying, MultiplexerSink.AudioDevice,
    MultiplexerSink.Shutdown, MultiplexerSink.SetSecondaryVideoContainer,
    MultiplexerSink.GetDebugInfo.

(** What any virtual call on the composite does, in terms of the two sinks. *)
Lemma run_dispatch {B : Type} (self : MultiplexerSink.Object St)
  (c : MediaSink.Call B) (st : St) :
  run self (MultiplexerSink.dispatch c) st =
  if forwarded c
  then (combined c (fst (self mVideoSink _ c st))
          (fst (self mDecodedStream _ c (snd (self mVideoSink _ c st)))),
        snd (self mDecodedStream _ c (snd (self mVideoSink _ c st))),
        [Calls mVideoSink c; Calls mDecodedStream c])
  else (fst (self mVideoSink _ c st), snd (self mVideoSink _ c st),
        [Calls mVideoSink c]).
Proof.
  destruct c; cbn [MultiplexerSink.dispatch forwarded combined];
    unfold_methods;
    first [ rewrite run_call; reflexivity
          | rewrite run_both; reflexivity
          | rewrite run_Start; reflexivity ].
Qed.

Lemma name_eqb_refl {B : Type} (c : MediaSink.Call B) :
  String.eqb (MediaSink.name c) (MediaSink.name c) = true.
Proof. apply String.eqb_refl. Qed.

(** X1.  Whatever the operation and whatever the sinks do, the composite
    issues the very call it received, first on the primary and then, for the
    methods that forward, once on the secondary; it issues nothing else.  So
    the primary is reached exactly once by every operation, the secondary at
    most once and never before the primary, and no other method of either
    sink is ever invoked. *)
Theorem every_operation_issues_its_own_call {B : Type}
  (self : MultiplexerSink.Object St) (c : MediaSink.Call B) (st : St) :
  let tr := calls (run self (MultiplexerSink.dispatch c) st) in
  tr = Calls mVideoSink c ::
       (if forwarded c then [Calls mDecodedStream c] else []) /\
  times mVideoSink (MediaSink.name c) tr = 1%nat /\
  times mDecodedStream (MediaSink.name c) tr
  = (if forwarded c then 1%nat else 0%nat) /\
  (forall (m : Member) (method : string),
      String.eqb method (MediaSink.name c) = false ->
      times m method tr = 0%nat).
Proof.
  intro tr. unfold tr. rewrite run_dispatch.
  destruct (forwarded c); unfold calls, times; cbn [snd filter invoked Member_eqb andb];
    rewrite ?name_eqb_refl; repeat split;
    intros m method E; rewrite E, !andb_false_r; reflexivity.
Qed.

End Denotation.

(** ** The merge of two results *)

Ltac merged_cases :=
  unfold merged, NS_OK, NS_ERROR_FAILURE;
  repeat match goal with
         | |- context [?a =? ?b] =>
             lazymatch a with
             | context [Z.eqb] => fail
             | _ => lazymatch b with
                    | context [Z.eqb] => fail
                    | _ => destruct (Z.eqb_spec a b)
                    end
             end
         end;
  try reflexivity; try lia.

Lemma merged_comm (a b : nsresult) : merged a b = merged b a.
Proof. merged_cases. Qed.

Lemma merged_assoc (a b c : nsresult) :
  merged (merged a b) c = merged a (merged b c).
Proof. merged_cases. Qed.

Lemma merged_choice (a b : nsresult) :
  merged a b = a \/ merged a b = b \/ merged a b = NS_ERROR_FAILURE.
Proof. merged_cases; auto. Qed.

Lemma combined_assoc `{MediaTypes} {B : Type} (c : MediaSink.Call B)
  (x y z : B) :
  combined c (combined c x y) z = combined c x (combined c y z).
Proof. destruct c; cbn [combined]; try reflexivity. apply merged_assoc. Qed.

(** ** Two sinks that share nothing *)

Section Separation.
Context `{MediaTypes}.

(** The composite over two separate sinks steps each half on its own. *)
Lemma run_apart_final {P Q B : Type} (v : MediaSink.Sink P)
  (d : MediaSink.Sink Q) (c : MediaSink.Call B) (p : P) (q : Q) :
  final (run (apart v d) (MultiplexerSink.dispatch c) (p, q)) =
  (snd (v _ c p), if forwarded c then snd (d _ c q) else q).
Proof.
  rewrite run_dispatch.
  unfold apart, on_fst, on_snd, final.
  cbn [MultiplexerSink.MultiplexerSink fst snd].
  destruct (v B c p) as [b p1]. destruct (d B c q) as [b' q1] eqn:Ed.
  destruct (forwarded c); cbn [fst snd]; rewrite ?Ed; reflexivity.
Qed.

Lemma as_sink_apart_step {P Q B : Type} (v : MediaSink.Sink P)
  (d : MediaSink.Sink Q) (c : MediaSink.Call B) (p : P) (q : Q) :
  snd (as_sink (apart v d) _ c (p, q)) =
  (snd (v _ c p), if forwarded c then snd (d _ c q) else q).
Proof. unfold as_sink. cbn [snd]. apply run_apart_final. Qed.

Lemma run_apart_result {P Q B : Type} (v : MediaSink.Sink P)
  (d : MediaSink.Sink Q) (c : MediaSink.Call B) (p : P) (q : Q) :
  result (run (apart v d) (MultiplexerSink.dispatch c) (p, q)) =
  if forwarded c then combined c (fst (v _ c p)) (fst (d _ c q))
  else fst (v _ c p).
Proof.
  rewrite run_dispatch.
  unfold apart, on_fst, on_snd, result.
  cbn [MultiplexerSink.MultiplexerSink fst snd].
  destruct (v B c p) as [b p1]. destruct (d B c q) as [b' q1] eqn:Ed.
  destruct (forwarded c); cbn [fst snd]; rewrite ?Ed; reflexivity.
Qed.

(** X2.  When the two sinks share nothing, an operation of the composite
    leaves the primary exactly as the same call made directly on it would,
    and leaves the secondary as the same call would for the methods that
    forward, untouched otherwise.  Every operation other than [Start]
    returns what the primary returned. *)
Theorem each_sink_sees_a_direct_call {P Q B : Type} (v : MediaSink.Sink P)
  (d : MediaSink.Sink Q) (c : MediaSink.Call B) (p : P) (q : Q) :
  let o := run (apart v d) (MultiplexerSink.dispatch c) (p, q) in
  final o = (snd (v _ c p), if forwarded c then snd (d _ c q) else q) /\
  (String.eqb (MediaSink.name c) "Start" = false ->
   result o = fst (v _ c p)).
Proof.
  intro o. unfold o. split; [apply run_apart_final |].
  rewrite run_apart_result.
  destruct c; cbn [MediaSink.name forwarded combined]; intro E;
    try discriminate E; try reflexivity;
    destruct (fst (v _ _ p)), (fst (d _ _ q)); reflexivity.
Qed.

Lemma session_apart {P Q : Type} (v : MediaSink.Sink P)
  (d : MediaSink.Sink Q) (rs : list Request) (p : P) (q : Q) :
  session (as_sink (apart v d)) rs (p, q) =
  (session v rs p, session d (filter forwarded_request rs) q).
Proof.
  revert p q. induction rs as [| [B c] rs IH]; intros p q; [reflexivity |].
  cbn [session filter forwarded_request].
  rewrite as_sink_apart_step, IH.
  destruct (forwarded c); reflexivity.
Qed.

(** X3.  A whole session driven through the composite, over two sinks that
    share nothing: the primary ends in the state the same session made
    directly on it would leave, and the secondary in the state left by the
    forwarded calls of the session, made directly on it in the same order. *)
Theorem session_leaves_each_sink_as_its_own_calls {P Q : Type}
  (v : MediaSink.Sink P) (d : MediaSink.Sink Q) (rs : list Request)
  (p : P) (q : Q) :
  fst (session (as_sink (apart v d)) rs (p, q)) = session v rs p /\
  snd (session (as_sink (apart v d)) rs (p, q)) =
  session d (filter forwarded_request rs) q.
Proof. rewrite session_apart. split; reflexivity. Qed.

(** X8.  Whatever the two sinks are and do, over a whole session the
    primary receives every call the driver made, in the driver's order and
    with the driver's arguments, and the secondary receives exactly the
    forwarded ones, in the same order. *)
Theorem session_calls_follow_the_driver {St : Type}
  (self : MultiplexerSink.Object St) (rs : list Request) (st : St) :
  received mVideoSink (session_calls self rs st) = rs /\
  received mDecodedStream (session_calls self rs st) =
  filter forwarded_request rs.
Proof.
  revert st. induction rs as [| [B c] rs IH]; intro st; [split; reflexivity |].
  cbn [session_calls filter forwarded_request].
  rewrite run_dispatch.
  destruct (forwarded c); cbn [calls final snd fst app received Member_eqb];
    destruct (IH (snd (self mDecodedStream B c (snd (self mVideoSink B c st)))))
      as [Hp1 Hd1];
    destruct (IH (snd (self mVideoSink B c st))) as [Hp2 Hd2];
    unfold final; cbn [fst snd];
    rewrite ?Hp1, ?Hd1, ?Hp2, ?Hd2; split; reflexivity.
Qed.

(** X9.  Over two sinks that share nothing, the driver cannot tell the
    composite from the primary used alone, except through the result of
    [Start]: after any session, any other call returns on the composite what
    it returns on the primary after the same session. *)
Theorem composite_answers_as_primary_alone {P Q B : Type}
  (v : MediaSink.Sink P) (d : MediaSink.Sink Q) (rs : list Request)
  (c : MediaSink.Call B) (p : P) (q : Q) :
  String.eqb (MediaSink.name c) "Start" = false ->
  fst (as_sink (apart v d) _ c (session (as_sink (apart v d)) rs (p, q))) =
  fst (v _ c (session v rs p)).
Proof.
  intro E. rewrite session_apart. unfold as_sink. cbn [fst].
  rewrite run_apart_result.
  destruct c; cbn [MediaSink.name forwarded combined] in *;
    try discriminate E; try reflexivity;
    match goal with
    | |- fst ?x = fst ?y => destruct (fst x), (fst y); reflexivity
    end.
Qed.

(** X4.  Which of two separate sinks is the primary does not matter to
    [Start]: with the members exchanged it returns the same result and
    leaves each sink in the same state.  The result is always one of the two
    sinks' results or [NS_ERROR_FAILURE]. *)
Theorem Start_result_ignores_member_order {P Q : Type} (v : MediaSink.Sink P)
  (d : MediaSink.Sink Q) (t : TimeUnit) (i : MediaInfo) (p : P) (q : Q) :
  let o := run (apart v d) (MultiplexerSink.Start t i) (p, q) in
  let o' := run (apart d v) (MultiplexerSink.Start t i) (q, p) in
  result o = result o' /\
  final o = (snd (final o'), fst (final o')) /\
  (result o = fst (v _ (MediaSink.Start t i) p) \/
   result o = fst (d _ (MediaSink.Start t i) q) \/
   result o = NS_ERROR_FAILURE).
Proof.
  intros o o'. unfold o, o'.
  change (MultiplexerSink.Start t i)
    with (MultiplexerSink.dispatch (MediaSink.Start t i)).
  split; [| split].
  - rewrite !run_apart_result. cbn [forwarded combined]. apply merged_comm.
  - rewrite !run_apart_final. reflexivity.
  - rewrite run_apart_result. cbn [forwarded combined]. apply merged_choice.
Qed.

End Separation.

(** ** A composite inside a composite *)

Section Nesting.
Context `{MediaTypes} {St : Type}.

(** A virtual call on the composite, seen as a call on one sink. *)
Lemma as_sink_eq {B : Type} (self : MultiplexerSink.Object St)
  (c : MediaSink.Call B) (st : St) :
  as_sink self _ c st =
  if forwarded c
  then (combined c (fst (self mVideoSink _ c st))
          (fst (self mDecodedStream _ c (snd (self mVideoSink _ c st)))),
        snd (self mDecodedStream _ c (snd (self mVideoSink _ c st))))
  else (fst (self mVideoSink _ c st), snd (self mVideoSink _ c st)).
Proof.
  unfold as_sink. rewrite run_dispatch. destruct (forwarded c); reflexivity.
Qed.

(** X5.  Three sinks can be multiplexed by nesting one composite in another,
    on either side.  The two nestings are the same sink: every operation
    returns the same value and leaves the same world, the three sinks being
    reached in the same order.  For [Start] this is the associativity of the
    merge of results. *)
Theorem nesting_is_associative {B : Type} (s1 s2 s3 : MediaSink.Sink St)
  (c : MediaSink.Call B) (st : St) :
  as_sink (MultiplexerSink.MultiplexerSink
             (as_sink (MultiplexerSink.MultiplexerSink s1 s2)) s3) _ c st =
  as_sink (MultiplexerSink.MultiplexerSink
             s1 (as_sink (MultiplexerSink.MultiplexerSink s2 s3))) _ c st.
Proof.
  rewrite (as_sink_eq (MultiplexerSink.MultiplexerSink
                         (as_sink (MultiplexerSink.MultiplexerSink s1 s2)) s3)).
  rewrite (as_sink_eq (MultiplexerSink.MultiplexerSink
                         s1 (as_sink (MultiplexerSink.MultiplexerSink s2 s3)))).
  cbn [MultiplexerSink.MultiplexerSink]. rewrite !as_sink_eq.
  cbn [MultiplexerSink.MultiplexerSink].
  destruct (forwarded c); cbn [fst snd]; [| reflexivity].
  rewrite combined_assoc. reflexivity.
Qed.

End Nesting.

(** ** Exceptions, for every method *)

Section Exceptions.
Context `{MediaTypes} {St : Type}.

(** What any virtual call on the composite does when its sinks may throw. *)
Lemma exec_dispatch {B : Type} (self : MultiplexerSink.ThrowingObject St)
  (c : MediaSink.Call B) (st : St) :
  exec self (MultiplexerSink.dispatch c) st =
  match self mVideoSink _ c st with
  | (MediaSink.Thrown, st1) => (MediaSink.Thrown, st1, [Calls mVideoSink c])
  | (MediaSink.Normal b, st1) =>
      if forwarded c
      then match self mDecodedStream _ c st1 with
           | (MediaSink.Thrown, st2) =>
               (MediaSink.Thrown, st2,
                [Calls mVideoSink c; Calls mDecodedStream c])
           | (MediaSink.Normal b', st2) =>
               (MediaSink.Normal (combined c b b'), st2,
                [Calls mVideoSink c; Calls mDecodedStream c])
           end
      else (MediaSink.Normal b, st1, [Calls mVideoSink c])
  end.
Proof.
  destruct c; cbn [MultiplexerSink.dispatch forwarded combined];
    unfold MultiplexerSink.OnEnded, MultiplexerSink.GetEndTime,
      MultiplexerSink.GetPosition, MultiplexerSink.HasUnplayedFrames,
      MultiplexerSink.UnplayedDuration, MultiplexerSink.SetVolume,
      MultiplexerSink.SetStreamName, MultiplexerSink.SetPlaybackRate,
      MultiplexerSink.SetPreservesPitch, MultiplexerSink.SetPlaying,
      MultiplexerSink.PlaybackRate, MultiplexerSink.Redraw,
      MultiplexerSink.Start, MultiplexerSink.Stop, MultiplexerSink.IsStarted,
      MultiplexerSink.IsPlaying, MultiplexerSink.AudioDevice,
      MultiplexerSink.Shutdown, MultiplexerSink.SetSecondaryVideoContainer,
      MultiplexerSink.GetDebugInfo, call, merged;
    cbn [bind exec];
    match goal with
    | |- context [self mVideoSink ?T ?k st] =>
        destruct (self mVideoSink T k st) as [[b | ] st1]
    end; try reflexivity;
    match goal with
    | |- context [self mDecodedStream ?T ?k ?s] =>
        destruct (self mDecodedStream T k s) as [[b' | ] st2]
    end; try reflexivity.
  destruct (b =? b'); [reflexivity |].
  destruct (b =? NS_OK); [reflexivity |].
  destruct (b' =? NS_OK); reflexivity.
Qed.

(** X6.  No method of the composite handles an exception.  Whatever the
    operation, if the primary's call throws, the exception reaches the
    caller, the world is as the primary left it, and the secondary is not
    called. *)
Theorem exception_from_primary_escapes {B : Type}
  (self : MultiplexerSink.ThrowingObject St) (c : MediaSink.Call B) (st : St) :
  fst (self mVideoSink _ c st) = MediaSink.Thrown ->
  exec self (MultiplexerSink.dispatch c) st =
  (MediaSink.Thrown, snd (self mVideoSink _ c st), [Calls mVideoSink c]).
Proof.
  intro E. rewrite exec_dispatch.
  destruct (self mVideoSink B c st) as [[b | ] st1];
    [discriminate E | reflexivity].
Qed.

(** X7.  For a method that forwards, if the primary's call returns and the
    secondary's call throws, the exception reaches the caller after both
    sinks were called: what the primary did stays done and the value it
    returned is lost.  In particular [Start] then yields no merged
    result. *)
Theorem exception_from_secondary_escapes {B : Type}
  (self : MultiplexerSink.ThrowingObject St) (c : MediaSink.Call B) (st : St)
  (b : B) :
  forwarded c = true ->
  fst (self mVideoSink _ c st) = MediaSink.Normal b ->
  fst (self mDecodedStream _ c (snd (self mVideoSink _ c st)))
  = MediaSink.Thrown ->
  exec self (MultiplexerSink.dispatch c) st =
  (MediaSink.Thrown,
   snd (self mDecodedStream _ c (snd (self mVideoSink _ c st))),
   [Calls mVideoSink c; Calls mDecodedStream c]).
Proof.
  intros Ef Ev Ed. rewrite exec_dispatch, Ef.
  destruct (self mVideoSink B c st) as [[b0 | ] st1]; [| discriminate Ev].
  cbn [snd] in *.
  destruct (self mDecodedStream B c st1) as [[b' | ] st2];
    [discriminate Ed | reflexivity].
Qed.

End Exceptions.

(** ** The further properties at work on the test doubles *)

Section FurtherInstances.
#[local] Existing Instance TestDouble.types.
Import TestDouble.

(** A composite whose primary throws from [GetPosition]. *)
Lemma exception_from_primary_escapes_witness :
  let self : MultiplexerSink.ThrowingObject (State * State) :=
    fun m => match m with
             | mVideoSink => throwing_from "GetPosition" (on_fst sink)
             | mDecodedStream => MediaSink.returning (on_snd sink)
             end in
  fst (self mVideoSink _ (MediaSink.GetPosition nullptr) world)
  = MediaSink.Thrown /\
  exec self (MultiplexerSink.GetPosition nullptr) world =
  (MediaSink.Thrown, world, [Calls mVideoSink (MediaSink.GetPosition nullptr)]).
Proof.
  cbv zeta. split; [reflexivity |].
  exact (exception_from_primary_escapes
           (fun m => match m with
                     | mVideoSink => throwing_from "GetPosition" (on_fst sink)
                     | mDecodedStream => MediaSink.returning (on_snd sink)
                     end)
           (MediaSink.GetPosition nullptr) world eq_refl).
Defined.

(** A composite whose secondary throws from [Start]: the caller gets the
    exception although the primary recorder has started. *)
Lemma exception_from_secondary_escapes_witness :
  let self : MultiplexerSink.ThrowingObject (State * State) :=
    fun m => match m with
             | mVideoSink => MediaSink.returning (on_fst sink)
             | mDecodedStream => throwing_from "Start" (on_snd sink)
             end in
  let c := MediaSink.Start time0 audio_video in
  forwarded c = true /\
  fst (self mVideoSink _ c world) = MediaSink.Normal NS_OK /\
  fst (self mDecodedStream _ c (snd (self mVideoSink _ c world)))
  = MediaSink.Thrown /\
  result (exec self (MultiplexerSink.Start time0 audio_video) world)
  = MediaSink.Thrown /\
  started (fst (final (exec self (MultiplexerSink.Start time0 audio_video)
                         world))) = true.
Proof.
  cbv zeta. repeat (split; [reflexivity |]).
  change (MultiplexerSink.Start time0 audio_video)
    with (MultiplexerSink.dispatch (MediaSink.Start time0 audio_video)).
  rewrite (exception_from_secondary_escapes
             (fun m => match m with
                       | mVideoSink => MediaSink.returning (on_fst sink)
                       | mDecodedStream => throwing_from "Start" (on_snd sink)
                       end)
             (MediaSink.Start time0 audio_video) world NS_OK
             eq_refl eq_refl eq_refl).
  split; reflexivity.
Defined.

(** After a session that starts the sinks and sets them playing, the
    composite reports playing, as the primary alone would; the secondary
    recorder, whose [Start] failed, does not weigh in. *)
Lemma composite_answers_as_primary_alone_witness :
  let rs := [Ask (MediaSink.Start time0 audio_video);
             Ask (MediaSink.SetPlaying true)] in
  String.eqb (MediaSink.name MediaSink.IsPlaying) "Start" = false /\
  fst (as_sink recorders _ MediaSink.IsPlaying
         (session (as_sink recorders) rs world)) = true.
Proof.
  cbv zeta. split; [reflexivity |].
  exact (eq_trans
           (composite_answers_as_primary_alone sink sink
              [Ask (MediaSink.Start time0 audio_video);
               Ask (MediaSink.SetPlaying true)]
              MediaSink.IsPlaying (fst world) (snd world) eq_refl)
           eq_refl).
Defined.

End FurtherInstances.

(** ** The object has no state of its own *)

Section ObjectState.
Context `{MediaTypes} {R : Type}.

(** No body assigns a member. *)
Lemma dispatch_Reads {B : Type} (c : MediaSink.Call B) :
  WithThis.Reads (WithThis.dispatch (R := R) c).
Proof.
  destruct c; cbn [WithThis.dispatch];
    unfold WithThis.OnEnded, WithThis.GetEndTime, WithThis.GetPosition,
      WithThis.HasUnplayedFrames, WithThis.UnplayedDuration,
      WithThis.SetVolume, WithThis.SetStreamName, WithThis.SetPlaybackRate,
      WithThis.SetPreservesPitch, WithThis.SetPlaying, WithThis.PlaybackRate,
      WithThis.Redraw, WithThis.Start, WithThis.Stop, WithThis.IsStarted,
      WithThis.IsPlaying, WithThis.AudioDevice, WithThis.Shutdown,
      WithThis.SetSecondaryVideoContainer, WithThis.GetDebugInfo;
    repeat (constructor; intro).
  destruct (b =? b0); [constructor |].
  destruct (b =? NS_OK); [constructor |].
  destruct (b0 =? NS_OK); constructor.
Qed.

(** A body that assigns no member leaves the object as it found it. *)
Lemma Reads_object {St A : Type} (sinks : R -> MediaSink.Sink St)
  (s : WithThis.Stmt A) (this : WithThis.Fields) (st : St) :
  WithThis.Reads s -> WithThis.object (WithThis.run sinks s this st) = this.
Proof.
  intro Hs. revert st. induction Hs as [a | B m c k _ IH]; intro st.
  - reflexivity.
  - cbn [WithThis.run WithThis.object]. apply IH.
Qed.

(** So the object is the same after any history of operations. *)
Lemma history_object {St : Type} (sinks : R -> MediaSink.Sink St)
  (rs : list Request) (this : WithThis.Fields) (st : St) :
  fst (WithThis.history sinks rs this st) = this.
Proof.
  revert this st. induction rs as [| [B c] rs IH]; intros this st.
  - reflexivity.
  - cbn [WithThis.history]. rewrite IH.
    apply Reads_object, dispatch_Reads.
Qed.

(** Run on the same object, a body returns the same value and delivers the
    same calls to the same sink objects whenever the sinks answer alike. *)
Lemma same_object_same_run {St1 St2 A : Type}
  (sinks1 : R -> MediaSink.Sink St1) (sinks2 : R -> MediaSink.Sink St2)
  (s : WithThis.Stmt A) (this : WithThis.Fields) (st1 : St1) (st2 : St2) :
  WithThis.agree s sinks1 this st1 sinks2 this st2 ->
  WithThis.value (WithThis.run sinks1 s this st1) =
  WithThis.value (WithThis.run sinks2 s this st2) /\
  WithThis.deliveries (WithThis.run sinks1 s this st1) =
  WithThis.deliveries (WithThis.run sinks2 s this st2).
Proof.
  revert this st1 st2.
  induction s as [a | B m c k IH | m e k IH]; intros this st1 st2 Hag.
  - split; reflexivity.
  - cbn [WithThis.agree] in Hag. destruct Hag as [Hb Hag].
    cbn [WithThis.run WithThis.value WithThis.deliveries].
    rewrite <- Hb in *.
    destruct (IH _ this _ _ Hag) as [Hv Hd].
    rewrite Hv, Hd. split; reflexivity.
  - cbn [WithThis.agree] in Hag. cbn [WithThis.run]. apply IH, Hag.
Qed.

(** The bodies written over [this] are the delegation programs of the first
    embedding: the same value, the same world, and the same calls, each
    delivered to the sink the member holds. *)
Lemma WithThis_run_is_run {St B : Type} (sinks : R -> MediaSink.Sink St)
  (c : MediaSink.Call B) (this : WithThis.Fields) (st : St) :
  let o := WithThis.run sinks (WithThis.dispatch c) this st in
  let o' := run (fun m => sinks (this m)) (MultiplexerSink.dispatch c) st in
  WithThis.value o = result o' /\
  WithThis.world o = final o' /\
  WithThis.deliveries o =
  map (fun e => match e with
                | Calls m k => WithThis.Delivered (this m) k
                end) (calls o').
Proof.
  intros o o'. unfold o, o'. rewrite run_dispatch.
  destruct c; cbn [WithThis.dispatch forwarded combined];
    unfold WithThis.OnEnded, WithThis.GetEndTime, WithThis.GetPosition,
      WithThis.HasUnplayedFrames, WithThis.UnplayedDuration,
      WithThis.SetVolume, WithThis.SetStreamName, WithThis.SetPlaybackRate,
      WithThis.SetPreservesPitch, WithThis.SetPlaying, WithThis.PlaybackRate,
      WithThis.Redraw, WithThis.Start, WithThis.Stop, WithThis.IsStarted,
      WithThis.IsPlaying, WithThis.AudioDevice, WithThis.Shutdown,
      WithThis.SetSecondaryVideoContainer, WithThis.GetDebugInfo, merged;
    cbn [WithThis.run WithThis.value WithThis.world WithThis.deliveries
         result final calls fst snd map];
    try (repeat split; reflexivity).
  destruct (_ =? _); [repeat split |].
  destruct (_ =? NS_OK); [repeat split |].
  destruct (_ =? NS_OK); repeat split.
Qed.

(** C8.  The object is its two members, bound by the constructor.  No
    operation assigns either of them: after any history of operations the
    members hold the sinks the constructor was given, and the operation that
    follows leaves them so.  Hence, for every operation and any two runs of
    it with the same arguments, at any two moments of the object's life, in
    any two worlds, in which the sinks return equal results, the two runs
    return the same value and deliver the same sequence of calls to the same
    sink objects. *)
Theorem composite_keeps_no_state {St1 St2 B : Type}
  (sinks1 : R -> MediaSink.Sink St1) (sinks2 : R -> MediaSink.Sink St2)
  (aVideoSink aDecodedStream : R) (h1 h2 : list Request)
  (st1 : St1) (st2 : St2) (c : MediaSink.Call B) :
  let this := WithThis.MultiplexerSink aVideoSink aDecodedStream in
  let before1 := WithThis.history sinks1 h1 this st1 in
  let before2 := WithThis.history sinks2 h2 this st2 in
  let o1 := WithThis.run sinks1 (WithThis.dispatch c)
              (fst before1) (snd before1) in
  let o2 := WithThis.run sinks2 (WithThis.dispatch c)
              (fst before2) (snd before2) in
  (fst before1 = this /\ fst before2 = this /\
   WithThis.object o1 = this /\ WithThis.object o2 = this) /\
  (WithThis.agree (WithThis.dispatch c)
     sinks1 (fst before1) (snd before1) sinks2 (fst before2) (snd before2) ->
   WithThis.value o1 = WithThis.value o2 /\
   WithThis.deliveries o1 = WithThis.deliveries o2).
Proof.
  intros this before1 before2 o1 o2.
  assert (E1 : fst before1 = this) by apply history_object.
  assert (E2 : fst before2 = this) by apply history_object.
  split.
  - repeat split; try assumption; unfold o1, o2;
      rewrite Reads_object by apply dispatch_Reads; assumption.
  - unfold o1, o2. rewrite E1, E2. apply same_object_same_run.
Qed.

(** The property is one of the bodies, not of the way they are written
    down: a body that assigns a member leaves another object behind, so a
    call that follows goes to another sink. *)
Remark rebinding_changes_the_object {St B : Type}
  (sinks : R -> MediaSink.Sink St) (aVideoSink aDecodedStream : R)
  (c : MediaSink.Call B) (st : St) :
  let o := WithThis.run sinks (WithThis.rebinding c)
             (WithThis.MultiplexerSink aVideoSink aDecodedStream) st in
  WithThis.object o mVideoSink = aDecodedStream /\
  WithThis.deliveries o = [WithThis.Delivered aDecodedStream c].
Proof. split; reflexivity. Qed.

End ObjectState.

Section ObjectStateInstance.
#[local] Existing Instance TestDouble.types.
Import TestDouble.

(** Two runs of [Start] on the composite over the recorders 0 and 1: one
    after the composite was set playing and stopped, in one world; the other
    on the fresh composite, in another world.  The recorders return the same
    results in both, and so does the composite, with the same calls. *)
Lemma composite_keeps_no_state_witness :
  let this := WithThis.MultiplexerSink 0%nat 1%nat in
  let before1 := WithThis.history numbered played_then_stopped this world in
  let before2 := WithThis.history numbered [] this other_world in
  let s := WithThis.dispatch (MediaSink.Start time0 audio_video) in
  WithThis.agree s numbered (fst before1) (snd before1)
                   numbered (fst before2) (snd before2) /\
  WithThis.value (WithThis.run numbered s (fst before1) (snd before1)) =
  WithThis.value (WithThis.run numbered s (fst before2) (snd before2)) /\
  WithThis.deliveries (WithThis.run numbered s (fst before1) (snd before1)) =
  WithThis.deliveries (WithThis.run numbered s (fst before2) (snd before2)).
Proof.
  cbv zeta.
  assert (Hag : WithThis.agree
                  (WithThis.dispatch (MediaSink.Start time0 audio_video))
                  numbered
                  (fst (WithThis.history numbered played_then_stopped
                          (WithThis.MultiplexerSink 0%nat 1%nat) world))
                  (snd (WithThis.history numbered played_then_stopped
                          (WithThis.MultiplexerSink 0%nat 1%nat) world))
                  numbered
                  (fst (WithThis.history numbered []
                          (WithThis.MultiplexerSink 0%nat 1%nat) other_world))
                  (snd (WithThis.history numbered []
                          (WithThis.MultiplexerSink 0%nat 1%nat) other_world))).
  { cbn. split; [reflexivity | split; reflexivity]. }
  split; [exact Hag |].
  exact (proj2 (composite_keeps_no_state numbered numbered 0%nat 1%nat
                  played_then_stopped [] world other_world
                  (MediaSink.Start time0 audio_video)) Hag).
Defined.

End ObjectStateInstance.
